(** * ddns_updater: the Cloudflare dynamic-DNS reconciliation, embedded in Rocq

    Shallow embedding of [src/ddns_updater.py].  The two functions of the
    module, [get_public_ip] and [update_dns_ip], talk to two remote services
    (the ifconfig.co lookup and the Cloudflare DNS API).  The services are an
    explicit [World] of answers; the program runs in a small monad that
    threads the log of the calls it issues and propagates Python exceptions. *)

From stdpp Require Import base option list gmap strings.
From Stdlib Require Import ZArith.

Local Open Scope string_scope.
Local Open Scope list_scope.
Local Open Scope Z_scope.

(** ** Python values *)

(** What [response.json()] can decode to.  A JSON number with a fraction or
    an exponent is kept as its lexeme: the program never computes with it. *)
#[warnings="-register-all"]
Inductive pyval : Type :=
  | PyNone
  | PyBool (b : bool)
  | PyInt (n : Z)
  | PyFloat (lexeme : string)
  | PyStr (s : string)
  | PyList (l : list pyval)
  | PyDict (d : gmap string pyval).

(** ** Objects of the two client libraries *)

(** The [requests.Response] attributes the module depends on.  [json_value]
    is what the [json()] method decodes the body to, [None] when the body is
    not a JSON document. *)
Record Response : Type := mkResponse {
  status_code : Z;
  reason : string;
  text : string;
  json_value : option pyval
}.

(** The exceptions that can cross [update_dns_ip]. *)
Inductive exn : Type :=
  | KeyError (key : string)
  | TypeError (msg : string)
  | HTTPError (response : Response)
  | JSONDecodeError (doc : string)
  | RequestException (msg : string)
  | APIError (msg : string).

(** The arguments [Cloudflare(...)] is constructed with (lines 71-77). *)
Record Cloudflare : Type := mkCloudflare {
  api_email : option string;
  api_token : string;
  default_headers : gmap string string
}.

(** A DNS record object.  The module reads [id], [name], [type] and
    [content]; every other attribute the provider sends (ttl, proxied,
    comment, ...) is in [extra]. *)
Module Rec.
Record t : Type := mk {
  id : string;
  name : string;
  type : string;
  content : string;
  extra : gmap string pyval
}.
End Rec.

(** ** Network calls and the world that answers them *)

Inductive call : Type :=
  | DnsRecordsGet (client : Cloudflare) (zone_id dns_record_id : string)
  | RequestsGet (url : string) (headers : gmap string string)
  | DnsRecordsUpdate (client : Cloudflare) (kwargs : gmap string pyval).

Record World : Type := mkWorld {
  dns_records_get : Cloudflare → string → string → exn + Rec.t;
  requests_get : string → gmap string string → exn + Response;
  dns_records_update : Cloudflare → gmap string pyval → exn + Rec.t
}.

Definition is_fetch (c : call) : bool :=
  match c with DnsRecordsGet _ _ _ => true | _ => false end.
Definition is_lookup (c : call) : bool :=
  match c with RequestsGet _ _ => true | _ => false end.
Definition is_update (c : call) : bool :=
  match c with DnsRecordsUpdate _ _ => true | _ => false end.

(** ** The monad: a call log threaded through, exceptions propagated *)

Definition M (A : Type) : Type := World → list call → list call * (exn + A).

#[global] Instance M_ret : MRet M := λ A (a : A) _ log, (log, inr a).

#[global] Instance M_bind : MBind M := λ A B (f : A → M B) (m : M A) w log,
  match m w log with
  | (log', inr a) => f a w log'
  | (log', inl e) => (log', inl e)
  end.

Definition raise {A : Type} (e : exn) : M A := λ _ log, (log, inl e).

(** A pure computation that may raise, run inside [M]. *)
Definition lift {A : Type} (r : exn + A) : M A := λ _ log, (log, r).

(** One network call: logged, then answered by the world. *)
Definition perform {A : Type} (c : call) (answer : World → exn + A) : M A :=
  λ w log, (log ++ [c], answer w).

(** Running a program from an empty log. *)
Definition run {A : Type} (m : M A) (w : World) : list call * (exn + A) := m w [].

(** Exceptions also propagate through pure code. *)
#[global] Instance exn_ret : MRet (sum exn) := λ A (a : A), inr a.

#[global] Instance exn_bind : MBind (sum exn) := λ A B (f : A → exn + B) (r : exn + A),
  match r with
  | inr a => f a
  | inl e => inl e
  end.

(** ** Python primitives *)

(** [d[key]] on a [dict] with string keys. *)
Definition getitem {V : Type} (d : gmap string V) (key : string) : exn + V :=
  match d !! key with
  | Some v => inr v
  | None => inl (KeyError key)
  end.

(** [v[key]] for a string [key] on an arbitrary decoded value. *)
Definition py_getitem (v : pyval) (key : string) : exn + pyval :=
  match v with
  | PyDict d => getitem d key
  | PyList _ => inl (TypeError "list indices must be integers or slices, not str")
  | PyStr _ => inl (TypeError "string indices must be integers, not 'str'")
  | _ => inl (TypeError "object is not subscriptable")
  end.

(** [s != v] for a [str] [s]: a value that is not a [str] always differs. *)
Definition str_ne (s : string) (v : pyval) : bool :=
  match v with
  | PyStr s' => negb (String.eqb s s')
  | _ => true
  end.

(** [Response.raise_for_status()]: raises for the 4xx and 5xx statuses
    (docstring of [get_public_ip], lines 36-38). *)
Definition raise_for_status_ (response : Response) : M unit :=
  if (400 <=? status_code response) && (status_code response <? 600)
  then raise (HTTPError response)
  else mret tt.

(** [Response.json()]. *)
Definition json (response : Response) : M pyval :=
  match json_value response with
  | Some v => mret v
  | None => raise (JSONDecodeError (text response))
  end.

(** ** The module *)

Definition ifconfig_url : string := "https://ifconfig.co/".
Definition ifconfig_headers : gmap string string := {[ "Accept" := "application/json" ]}.

(** Lines 24-47. *)
Definition get_public_ip (raise_for_status : bool) : M pyval :=
  response ← perform (RequestsGet ifconfig_url ifconfig_headers)
                     (λ w, requests_get w ifconfig_url ifconfig_headers);
  _ ← (if raise_for_status then raise_for_status_ response else mret tt);
  json response.

(** Lines 71-77: the keyword arguments are evaluated left to right, the
    token is subscripted twice. *)
Definition cloudflare_client (secrets : gmap string string) : exn + Cloudflare :=
  let email := secrets !! "CLOUDFLARE_EMAIL" in
  token ← getitem secrets "CLOUDFLARE_API_TOKEN";
  token' ← getitem secrets "CLOUDFLARE_API_TOKEN";
  mret (mkCloudflare email token {[ "Authorization" := "Bearer " +:+ token' ]}).

(** The keyword arguments of [dns.records.update] (lines 90-94). *)
Definition update_kwargs (record : Rec.t) (ip : pyval) (zone : string)
  : gmap string pyval :=
  <[ "name" := PyStr (Rec.name record) ]>
  (<[ "type" := PyStr (Rec.type record) ]>
  (<[ "dns_record_id" := PyStr (Rec.id record) ]>
  (<[ "content" := ip ]>
  {[ "zone_id" := PyStr zone ]}))).

(** Lines 50-95.  A function that falls off its end returns [None]. *)
Definition update_dns_ip (raise_for_status : bool) (secrets : gmap string string)
  : M (option Rec.t) :=
  client ← lift (cloudflare_client secrets);
  zone ← lift (getitem secrets "ZONE_ID");
  record_id ← lift (getitem secrets "RECORD_ID");
  record ← perform (DnsRecordsGet client zone record_id)
                   (λ w, dns_records_get w client zone record_id);
  pub_ip_info ← get_public_ip raise_for_status;
  ip ← lift (py_getitem pub_ip_info "ip");
  if str_ne (Rec.content record) ip then
    ip' ← lift (py_getitem pub_ip_info "ip");
    zone' ← lift (getitem secrets "ZONE_ID");
    let kwargs := update_kwargs record ip' zone' in
    updated ← perform (DnsRecordsUpdate client kwargs)
                      (λ w, dns_records_update w client kwargs);
    mret (Some updated)
  else mret None.

(** ** Notions used in the statements *)

(** What one lookup yields, as a function of the world's answer. *)
Definition lookup_outcome (raise_for_status : bool) (answer : exn + Response) : exn + pyval :=
  match answer with
  | inl e => inl e
  | inr response =>
      if raise_for_status && ((400 <=? status_code response) && (status_code response <? 600))
      then inl (HTTPError response)
      else match json_value response with
           | Some v => inr v
           | None => inl (JSONDecodeError (text response))
           end
  end.

Definition required_keys : list string :=
  ["CLOUDFLARE_API_TOKEN"; "ZONE_ID"; "RECORD_ID"].

(** The log of an invocation is an initial part of: read, lookup, update. *)
Inductive log_shape : list call → Prop :=
  | shape_none : log_shape []
  | shape_fetch client zone rid :
      log_shape [DnsRecordsGet client zone rid]
  | shape_lookup client zone rid :
      log_shape [DnsRecordsGet client zone rid; RequestsGet ifconfig_url ifconfig_headers]
  | shape_update client zone rid kwargs :
      log_shape [DnsRecordsGet client zone rid; RequestsGet ifconfig_url ifconfig_headers;
                 DnsRecordsUpdate client kwargs].

(** C8 as first stated: every update call carries the configured ZONE_ID as
    [zone_id] and the configured RECORD_ID as [dns_record_id]. *)
Definition update_addressed_as_configured
    (w : World) (strict : bool) (secrets : gmap string string) : Prop :=
  ∀ client kwargs,
    DnsRecordsUpdate client kwargs ∈ (run (update_dns_ip strict secrets) w).1 →
    kwargs !! "zone_id" = PyStr <$> secrets !! "ZONE_ID"
    ∧ kwargs !! "dns_record_id" = PyStr <$> secrets !! "RECORD_ID".

(** The fetched record without the attributes the module does not read. *)
Definition read_fields (record : Rec.t) : Rec.t :=
  Rec.mk (Rec.id record) (Rec.name record) (Rec.type record) (Rec.content record) ∅.

(** ** Concrete scenarios *)

Definition secrets_ok : gmap string string :=
  <[ "CLOUDFLARE_API_TOKEN" := "s3cr3t" ]>
  (<[ "ZONE_ID" := "zone-1" ]>
  {[ "RECORD_ID" := "rec-1" ]}).

Definition client_ok : Cloudflare :=
  mkCloudflare None "s3cr3t" {[ "Authorization" := "Bearer s3cr3t" ]}.

Definition record_1234 : Rec.t :=
  Rec.mk "rec-1" "home.example.com" "A" "1.2.3.4"
    (<[ "ttl" := PyInt 300 ]> (<[ "proxied" := PyBool true ]> {[ "comment" := PyStr "home" ]})).

Definition ip_info (ip : string) : pyval :=
  PyDict (<[ "ip" := PyStr ip ]> {[ "country" := PyStr "Iceland" ]}).

(** Bodies are written with single quotes in place of JSON's double ones. *)
Definition ip_body (ip : string) : string :=
  "{'ip': '" +:+ ip +:+ "', 'country': 'Iceland'}".

Definition response_ok (ip : string) : Response :=
  mkResponse 200 "OK" (ip_body ip) (Some (ip_info ip)).

(** A provider that stores what the update sends. *)
Definition provider_update (_ : Cloudflare) (kwargs : gmap string pyval) : exn + Rec.t :=
  match kwargs !! "dns_record_id", kwargs !! "name", kwargs !! "type", kwargs !! "content" with
  | Some (PyStr i), Some (PyStr n), Some (PyStr t), Some (PyStr c) => inr (Rec.mk i n t c ∅)
  | _, _, _, _ => inl (APIError "validation error")
  end.

Definition world_of (record : exn + Rec.t) (response : exn + Response) : World :=
  mkWorld (λ _ _ _, record) (λ _ _, response) provider_update.

Definition secrets_without_zone : gmap string string :=
  <[ "CLOUDFLARE_API_TOKEN" := "s3cr3t" ]> {[ "RECORD_ID" := "rec-1" ]}.

Definition response_500_empty : Response :=
  mkResponse 500 "Internal Server Error" "{}" (Some (PyDict ∅)).

Definition response_300 : Response :=
  mkResponse 300 "Multiple Choices" (ip_body "5.6.7.8") (Some (ip_info "5.6.7.8")).

Definition response_500 : Response :=
  mkResponse 500 "Internal Server Error" "upstream failure" None.

(** A provider whose answer to the read carries another id than the one it
    was asked for. *)
Definition record_other_id : Rec.t :=
  Rec.mk "rec-2" "home.example.com" "A" "1.2.3.4" ∅.

(** The keys [update_dns_ip] reads from its keyword arguments. *)
Definition credential_keys : list string :=
  "CLOUDFLARE_EMAIL" :: required_keys.

(** Two keyword bags that agree on the keys the function reads. *)
Definition same_credentials (secrets secrets' : gmap string string) : Prop :=
  ∀ key, key ∈ credential_keys → secrets !! key = secrets' !! key.

(** The status range [raise_for_status()] raises for. *)
Definition is_error_status (response : Response) : Prop :=
  400 <= status_code response < 600.

(** Values that are not a [str]. *)
Definition not_a_str (v : pyval) : Prop := ∀ s, v ≠ PyStr s.

(** Values that are not a [dict]. *)
Definition not_a_dict (v : pyval) : Prop := ∀ d, v ≠ PyDict d.

(** The credentials with an unrelated entry beside them. *)
Definition secrets_noisy : gmap string string :=
  <[ "TZ" := "UTC" ]> secrets_ok.

Definition record_5678 : Rec.t :=
  Rec.mk "rec-1" "home.example.com" "A" "5.6.7.8" ∅.

Definition response_list : Response :=
  mkResponse 200 "OK" "['5.6.7.8']" (Some (PyList [PyStr "5.6.7.8"])).

Definition response_null_ip : Response :=
  mkResponse 200 "OK" "{'ip': null}" (Some (PyDict {[ "ip" := PyNone ]})).

Definition response_html_200 : Response :=
  mkResponse 200 "OK" "<html>maintenance</html>" None.

(** C5 as first stated: in non-strict mode every response of the lookup
    service is decoded and returned as a key-value mapping. *)
Definition non_strict_always_returns_mapping (w : World) : Prop :=
  ∀ response,
    requests_get w ifconfig_url ifconfig_headers = inr response →
    ∃ d : gmap string pyval, (run (get_public_ip false) w).2 = inr (PyDict d).

(** An error answer with a zero-length body. *)
Definition response_500_blank : Response :=
  mkResponse 500 "Internal Server Error" EmptyString None.

(** The credentials are complete and the provider answers the read. *)
Definition read_succeeds (w : World) (secrets : gmap string string) : Prop :=
  ∃ client zone rid record,
    cloudflare_client secrets = inr client
    ∧ secrets !! "ZONE_ID" = Some zone
    ∧ secrets !! "RECORD_ID" = Some rid
    ∧ dns_records_get w client zone rid = inr record.

Ltac required_key :=
  unfold required_keys; apply list_elem_of_In; simpl; tauto.

(** ** Running the monad, one step at a time *)

Lemma bind_lift {A B : Type} (r : exn + A) (f : A → M B) w log :
  (lift r ≫= f) w log = match r with inr a => f a w log | inl e => (log, inl e) end.
Proof. by destruct r. Qed.

Lemma bind_perform {A B : Type} (c : call) (answer : World → exn + A) (f : A → M B) w log :
  (perform c answer ≫= f) w log =
  match answer w with
  | inr a => f a w (log ++ [c])
  | inl e => (log ++ [c], inl e)
  end.
Proof. unfold mbind, M_bind, perform. by destruct (answer w). Qed.

Lemma bind_assoc {A B C : Type} (m : M A) (f : A → M B) (g : B → M C) w log :
  ((m ≫= f) ≫= g) w log = (m ≫= (λ a, f a ≫= g)) w log.
Proof.
  unfold mbind, M_bind. destruct (m w log) as [log' [e|a]]; [done|].
  by destruct (f a w log') as [log'' [e|b]].
Qed.

Lemma getitem_Some {V : Type} (d : gmap string V) key v :
  d !! key = Some v → getitem d key = inr v.
Proof. intros H. unfold getitem. by rewrite H. Qed.

Lemma getitem_None {V : Type} (d : gmap string V) key :
  d !! key = None → getitem d key = inl (KeyError key).
Proof. intros H. unfold getitem. by rewrite H. Qed.

Lemma get_public_ip_run strict w log :
  get_public_ip strict w log =
  (log ++ [RequestsGet ifconfig_url ifconfig_headers],
   lookup_outcome strict (requests_get w ifconfig_url ifconfig_headers)).
Proof.
  unfold get_public_ip. rewrite bind_perform. unfold lookup_outcome.
  destruct (requests_get w ifconfig_url ifconfig_headers) as [e|response]; [done|].
  unfold mbind, M_bind, raise_for_status_, json, raise, mret, M_ret.
  destruct strict; simpl.
  - destruct ((400 <=? status_code response) && (status_code response <? 600)); [done|].
    by destruct (json_value response).
  - by destruct (json_value response).
Qed.

(** The lookup issues exactly one call, and its result does not depend on
    the calls logged before it. *)
Lemma get_public_ip_log strict w log :
  (get_public_ip strict w log).1 = log ++ [RequestsGet ifconfig_url ifconfig_headers].
Proof. by rewrite get_public_ip_run. Qed.

Lemma get_public_ip_result strict w log :
  (get_public_ip strict w log).2 = (run (get_public_ip strict) w).2.
Proof. unfold run. by rewrite !get_public_ip_run. Qed.

Lemma bind_get_public_ip {B : Type} strict (f : pyval → M B) w log :
  (get_public_ip strict ≫= f) w log =
  match (run (get_public_ip strict) w).2 with
  | inr info => f info w (log ++ [RequestsGet ifconfig_url ifconfig_headers])
  | inl e => (log ++ [RequestsGet ifconfig_url ifconfig_headers], inl e)
  end.
Proof.
  unfold mbind at 1, M_bind at 1.
  rewrite <- (get_public_ip_result strict w log).
  destruct (get_public_ip strict w log) as [log' r] eqn:E.
  pose proof (get_public_ip_log strict w log) as Hlog. rewrite E in Hlog.
  simpl in *. subst log'. by destruct r.
Qed.

Lemma cloudflare_client_Some secrets token :
  secrets !! "CLOUDFLARE_API_TOKEN" = Some token →
  cloudflare_client secrets =
  inr (mkCloudflare (secrets !! "CLOUDFLARE_EMAIL") token
                    {[ "Authorization" := "Bearer " +:+ token ]}).
Proof. intros H. unfold cloudflare_client, getitem. by rewrite H. Qed.

Lemma cloudflare_client_None secrets :
  secrets !! "CLOUDFLARE_API_TOKEN" = None →
  cloudflare_client secrets = inl (KeyError "CLOUDFLARE_API_TOKEN").
Proof. intros H. unfold cloudflare_client, getitem. by rewrite H. Qed.

(** The whole reconciliation once the credentials are complete. *)
Lemma update_dns_ip_run w strict secrets client zone record_id :
  cloudflare_client secrets = inr client →
  secrets !! "ZONE_ID" = Some zone →
  secrets !! "RECORD_ID" = Some record_id →
  run (update_dns_ip strict secrets) w =
  let fetch := DnsRecordsGet client zone record_id in
  let lookup := RequestsGet ifconfig_url ifconfig_headers in
  match dns_records_get w client zone record_id with
  | inl e => ([fetch], inl e)
  | inr record =>
      match (run (get_public_ip strict) w).2 with
      | inl e => ([fetch; lookup], inl e)
      | inr pub_ip_info =>
          match py_getitem pub_ip_info "ip" with
          | inl e => ([fetch; lookup], inl e)
          | inr ip =>
              if str_ne (Rec.content record) ip then
                let kwargs := update_kwargs record ip zone in
                ([fetch; lookup; DnsRecordsUpdate client kwargs],
                 match dns_records_update w client kwargs with
                 | inl e => inl e
                 | inr updated => inr (Some updated)
                 end)
              else ([fetch; lookup], inr None)
          end
      end
  end.
Proof.
  intros Hclient Hzone Hrid. unfold run at 1, update_dns_ip.
  rewrite Hclient, bind_lift, (getitem_Some _ _ _ Hzone), bind_lift.
  rewrite (getitem_Some _ _ _ Hrid), bind_lift, bind_perform. simpl.
  destruct (dns_records_get w client zone record_id) as [e|record]; [done|].
  rewrite bind_get_public_ip.
  destruct (run (get_public_ip strict) w).2 as [e|info]; [done|].
  rewrite bind_lift.
  destruct (py_getitem info "ip") as [e|ip]; [done|].
  destruct (str_ne (Rec.content record) ip); [|done].
  rewrite !bind_lift, bind_perform. simpl.
  by destruct (dns_records_update w client (update_kwargs record ip zone)).
Qed.

Lemma str_ne_true s v : str_ne s v = true ↔ PyStr s ≠ v.
Proof.
  destruct v; simpl; try (split; [discriminate|done]).
  rewrite negb_true_iff, String.eqb_neq. split; congruence.
Qed.

Lemma str_ne_false s v : str_ne s v = false ↔ v = PyStr s.
Proof.
  destruct v; simpl; try (split; discriminate).
  rewrite negb_false_iff, String.eqb_eq. split; congruence.
Qed.

(** ** The two scenarios of the specification *)

Example run_in_sync :
  run (update_dns_ip true secrets_ok) (world_of (inr record_1234) (inr (response_ok "1.2.3.4")))
  = ([DnsRecordsGet client_ok "zone-1" "rec-1"; RequestsGet ifconfig_url ifconfig_headers],
     inr None).
Proof. vm_compute. reflexivity. Qed.

Example run_changed :
  run (update_dns_ip true secrets_ok) (world_of (inr record_1234) (inr (response_ok "5.6.7.8")))
  = ([DnsRecordsGet client_ok "zone-1" "rec-1"; RequestsGet ifconfig_url ifconfig_headers;
      DnsRecordsUpdate client_ok (update_kwargs record_1234 (PyStr "5.6.7.8") "zone-1")],
     inr (Some (Rec.mk "rec-1" "home.example.com" "A" "5.6.7.8" ∅))).
Proof. vm_compute. reflexivity. Qed.

(** ** The reconciliation step (lines 87-95) *)

(** C1.  Whenever the record was fetched and the lookup resolved to a
    mapping whose ["ip"] entry is the very string stored in the record's
    [content], [update_dns_ip] returns [None] and the calls it issued are the
    read and the lookup: no update call. *)
Theorem in_sync_returns_None_without_update
    w strict secrets client zone record_id record (d : gmap string pyval) ip :
  cloudflare_client secrets = inr client →
  secrets !! "ZONE_ID" = Some zone →
  secrets !! "RECORD_ID" = Some record_id →
  dns_records_get w client zone record_id = inr record →
  (run (get_public_ip strict) w).2 = inr (PyDict d) →
  d !! "ip" = Some (PyStr ip) →
  Rec.content record = ip →
  run (update_dns_ip strict secrets) w =
    ([DnsRecordsGet client zone record_id; RequestsGet ifconfig_url ifconfig_headers],
     inr None)
  ∧ List.filter is_update (run (update_dns_ip strict secrets) w).1 = [].
Proof.
  intros Hclient Hzone Hrid Hget Hip Hd Heq.
  rewrite (update_dns_ip_run w strict _ _ _ _ Hclient Hzone Hrid), Hget, Hip.
  simpl. rewrite (getitem_Some _ _ _ Hd).
  assert (str_ne (Rec.content record) (PyStr ip) = false) as ->
    by (apply str_ne_false; congruence).
  done.
Qed.

Lemma in_sync_returns_None_without_update_witness :
  run (update_dns_ip true secrets_ok)
      (world_of (inr record_1234) (inr (response_ok "1.2.3.4")))
  = ([DnsRecordsGet client_ok "zone-1" "rec-1"; RequestsGet ifconfig_url ifconfig_headers],
     inr None)
  ∧ List.filter is_update
      (run (update_dns_ip true secrets_ok)
           (world_of (inr record_1234) (inr (response_ok "1.2.3.4")))).1 = [].
Proof.
  apply (in_sync_returns_None_without_update
           (world_of (inr record_1234) (inr (response_ok "1.2.3.4")))
           true secrets_ok client_ok "zone-1" "rec-1" record_1234
           (<[ "ip" := PyStr "1.2.3.4" ]> {[ "country" := PyStr "Iceland" ]}) "1.2.3.4");
    vm_compute; reflexivity.
Defined.

(** C2.  Whenever the record was fetched and the lookup resolved to a
    mapping whose ["ip"] entry differs from the record's [content],
    [update_dns_ip] issues exactly one update call, after the read and the
    lookup; its [content] is the resolved ip, its [name] and [type] are the
    fetched record's; and the result is whatever the provider answers to that
    call: the updated record, or the provider's error. *)
Theorem changed_ip_updates_once
    w strict secrets client zone record_id record (d : gmap string pyval) ip :
  cloudflare_client secrets = inr client →
  secrets !! "ZONE_ID" = Some zone →
  secrets !! "RECORD_ID" = Some record_id →
  dns_records_get w client zone record_id = inr record →
  (run (get_public_ip strict) w).2 = inr (PyDict d) →
  d !! "ip" = Some ip →
  PyStr (Rec.content record) ≠ ip →
  ∃ kwargs : gmap string pyval,
    run (update_dns_ip strict secrets) w =
      ([DnsRecordsGet client zone record_id; RequestsGet ifconfig_url ifconfig_headers;
        DnsRecordsUpdate client kwargs],
       match dns_records_update w client kwargs with
       | inl e => inl e
       | inr updated => inr (Some updated)
       end)
    ∧ kwargs !! "content" = Some ip
    ∧ kwargs !! "name" = Some (PyStr (Rec.name record))
    ∧ kwargs !! "type" = Some (PyStr (Rec.type record))
    ∧ length (List.filter is_update (run (update_dns_ip strict secrets) w).1) = 1%nat.
Proof.
  intros Hclient Hzone Hrid Hget Hip Hd Hne.
  exists (update_kwargs record ip zone).
  rewrite (update_dns_ip_run w strict _ _ _ _ Hclient Hzone Hrid), Hget, Hip.
  simpl. rewrite (getitem_Some _ _ _ Hd).
  apply str_ne_true in Hne. rewrite Hne.
  repeat split; unfold update_kwargs; by simplify_map_eq.
Qed.

Lemma changed_ip_updates_once_witness :
  ∃ kwargs : gmap string pyval,
    run (update_dns_ip true secrets_ok)
        (world_of (inr record_1234) (inr (response_ok "5.6.7.8"))) =
      ([DnsRecordsGet client_ok "zone-1" "rec-1"; RequestsGet ifconfig_url ifconfig_headers;
        DnsRecordsUpdate client_ok kwargs],
       match provider_update client_ok kwargs with
       | inl e => inl e
       | inr updated => inr (Some updated)
       end)
    ∧ kwargs !! "content" = Some (PyStr "5.6.7.8")
    ∧ kwargs !! "name" = Some (PyStr "home.example.com")
    ∧ kwargs !! "type" = Some (PyStr "A")
    ∧ length (List.filter is_update
        (run (update_dns_ip true secrets_ok)
             (world_of (inr record_1234) (inr (response_ok "5.6.7.8")))).1) = 1%nat.
Proof.
  apply (changed_ip_updates_once
           (world_of (inr record_1234) (inr (response_ok "5.6.7.8")))
           true secrets_ok client_ok "zone-1" "rec-1" record_1234
           (<[ "ip" := PyStr "5.6.7.8" ]> {[ "country" := PyStr "Iceland" ]})
           (PyStr "5.6.7.8"));
    try (vm_compute; reflexivity).
  vm_compute. discriminate.
Defined.

(** ** Credentials (lines 71-82) *)

Lemma update_dns_ip_missing_token w strict secrets :
  secrets !! "CLOUDFLARE_API_TOKEN" = None →
  run (update_dns_ip strict secrets) w = ([], inl (KeyError "CLOUDFLARE_API_TOKEN")).
Proof.
  intros H. unfold run, update_dns_ip.
  by rewrite (cloudflare_client_None _ H), bind_lift.
Qed.

Lemma update_dns_ip_missing_zone w strict secrets token :
  secrets !! "CLOUDFLARE_API_TOKEN" = Some token →
  secrets !! "ZONE_ID" = None →
  run (update_dns_ip strict secrets) w = ([], inl (KeyError "ZONE_ID")).
Proof.
  intros Ht Hz. unfold run, update_dns_ip.
  by rewrite (cloudflare_client_Some _ _ Ht), bind_lift, (getitem_None _ _ Hz), bind_lift.
Qed.

Lemma update_dns_ip_missing_record w strict secrets token zone :
  secrets !! "CLOUDFLARE_API_TOKEN" = Some token →
  secrets !! "ZONE_ID" = Some zone →
  secrets !! "RECORD_ID" = None →
  run (update_dns_ip strict secrets) w = ([], inl (KeyError "RECORD_ID")).
Proof.
  intros Ht Hz Hr. unfold run, update_dns_ip.
  rewrite (cloudflare_client_Some _ _ Ht), bind_lift, (getitem_Some _ _ _ Hz), bind_lift.
  by rewrite (getitem_None _ _ Hr), bind_lift.
Qed.

(** C3.  When one of CLOUDFLARE_API_TOKEN, ZONE_ID, RECORD_ID is absent from
    the credentials, [update_dns_ip] raises [KeyError] for an absent required
    key and its call log is empty: no provider read, no lookup, no write. *)
Theorem missing_credential_raises_before_any_call w strict (secrets : gmap string string) :
  (∃ key, key ∈ required_keys ∧ secrets !! key = None) →
  ∃ key, key ∈ required_keys ∧ secrets !! key = None ∧
    run (update_dns_ip strict secrets) w = ([], inl (KeyError key)).
Proof.
  intros (key & Hin & Hnone).
  destruct (secrets !! "CLOUDFLARE_API_TOKEN") as [token|] eqn:Ht; last first.
  { exists "CLOUDFLARE_API_TOKEN". split_and!; [required_key | done |].
    by apply update_dns_ip_missing_token. }
  destruct (secrets !! "ZONE_ID") as [zone|] eqn:Hz; last first.
  { exists "ZONE_ID". split_and!; [required_key | done |].
    by eapply update_dns_ip_missing_zone. }
  destruct (secrets !! "RECORD_ID") as [rid|] eqn:Hr; last first.
  { exists "RECORD_ID". split_and!; [required_key | done |].
    by eapply update_dns_ip_missing_record. }
  unfold required_keys in Hin.
  rewrite !elem_of_cons, elem_of_nil in Hin.
  destruct Hin as [->|[->|[->|[]]]]; congruence.
Qed.

Lemma missing_credential_raises_before_any_call_witness :
  ∃ key, key ∈ required_keys ∧ secrets_without_zone !! key = None ∧
    run (update_dns_ip true secrets_without_zone)
        (world_of (inr record_1234) (inr (response_ok "5.6.7.8")))
    = ([], inl (KeyError key)).
Proof.
  apply (missing_credential_raises_before_any_call
           (world_of (inr record_1234) (inr (response_ok "5.6.7.8")))
           true secrets_without_zone).
  exists "ZONE_ID". split; [required_key | vm_compute; reflexivity].
Defined.

Example run_without_zone :
  run (update_dns_ip true secrets_without_zone)
      (world_of (inr record_1234) (inr (response_ok "5.6.7.8")))
  = ([], inl (KeyError "ZONE_ID")).
Proof. vm_compute. reflexivity. Qed.

(** C9.  When the credentials contain CLOUDFLARE_API_TOKEN, the client is
    constructed; its [api_token] is the token and its default Authorization
    header is ["Bearer "] followed by the same token.  It is the client
    [update_dns_ip] works with: once ZONE_ID and RECORD_ID are there too, the
    first call of the invocation is the read through that client, and every
    provider call of the invocation, read or update, goes through it. *)
Theorem client_carries_token_twice w strict (secrets : gmap string string) token :
  secrets !! "CLOUDFLARE_API_TOKEN" = Some token →
  ∃ client, cloudflare_client secrets = inr client
    ∧ api_token client = token
    ∧ default_headers client !! "Authorization" = Some ("Bearer " +:+ token)
    ∧ (∀ zone rid,
         secrets !! "ZONE_ID" = Some zone →
         secrets !! "RECORD_ID" = Some rid →
         (run (update_dns_ip strict secrets) w).1 !! 0%nat
           = Some (DnsRecordsGet client zone rid))
    ∧ ∀ c, c ∈ (run (update_dns_ip strict secrets) w).1 →
        match c with
        | DnsRecordsGet cl _ _ | DnsRecordsUpdate cl _ => cl = client
        | RequestsGet _ _ => True
        end.
Proof.
  intros Ht. eexists. split; [by apply cloudflare_client_Some|].
  split; [done|]. split; [by simplify_map_eq|]. split.
  - intros zone rid Hz Hr.
    rewrite (update_dns_ip_run w strict _ _ _ _ (cloudflare_client_Some _ _ Ht) Hz Hr).
    simpl.
    repeat match goal with
           | |- context [match ?x with _ => _ end] => destruct x
           end; done.
  - destruct (secrets !! "ZONE_ID") as [zone|] eqn:Hz; last first.
    { rewrite (update_dns_ip_missing_zone _ _ _ _ Ht Hz). simpl.
      by intros c ?%elem_of_nil. }
    destruct (secrets !! "RECORD_ID") as [rid|] eqn:Hr; last first.
    { rewrite (update_dns_ip_missing_record _ _ _ _ _ Ht Hz Hr). simpl.
      by intros c ?%elem_of_nil. }
    rewrite (update_dns_ip_run w strict _ _ _ _ (cloudflare_client_Some _ _ Ht) Hz Hr).
    intros c. simpl.
    repeat match goal with
           | |- context [match ?x with _ => _ end] => destruct x
           end; simpl;
      rewrite ?elem_of_cons, ?elem_of_nil; intros H; destruct_or?; by simplify_eq.
Qed.

Lemma client_carries_token_twice_witness :
  ∃ client, cloudflare_client secrets_ok = inr client
    ∧ api_token client = "s3cr3t"
    ∧ default_headers client !! "Authorization" = Some "Bearer s3cr3t"
    ∧ (∀ zone rid,
         secrets_ok !! "ZONE_ID" = Some zone →
         secrets_ok !! "RECORD_ID" = Some rid →
         (run (update_dns_ip true secrets_ok)
              (world_of (inr record_1234) (inr (response_ok "5.6.7.8")))).1 !! 0%nat
           = Some (DnsRecordsGet client zone rid))
    ∧ ∀ c, c ∈ (run (update_dns_ip true secrets_ok)
                    (world_of (inr record_1234) (inr (response_ok "5.6.7.8")))).1 →
        match c with
        | DnsRecordsGet cl _ _ | DnsRecordsUpdate cl _ => cl = client
        | RequestsGet _ _ => True
        end.
Proof.
  apply (client_carries_token_twice
           (world_of (inr record_1234) (inr (response_ok "5.6.7.8")))
           true secrets_ok "s3cr3t").
  vm_compute. reflexivity.
Defined.

(** The client reaches the provider: with complete credentials the read and
    the update of one invocation both carry the token in its two forms. *)
Example run_changed_clients :
  (run (update_dns_ip true secrets_ok)
       (world_of (inr record_1234) (inr (response_ok "5.6.7.8")))).1
  = [DnsRecordsGet (mkCloudflare None "s3cr3t" {[ "Authorization" := "Bearer s3cr3t" ]})
       "zone-1" "rec-1";
     RequestsGet ifconfig_url ifconfig_headers;
     DnsRecordsUpdate (mkCloudflare None "s3cr3t" {[ "Authorization" := "Bearer s3cr3t" ]})
       (update_kwargs record_1234 (PyStr "5.6.7.8") "zone-1")].
Proof. by vm_compute. Qed.

(** ** The calls of one invocation *)

Lemma update_dns_ip_log_shape w strict secrets :
  log_shape (run (update_dns_ip strict secrets) w).1.
Proof.
  destruct (secrets !! "CLOUDFLARE_API_TOKEN") as [token|] eqn:Ht; last first.
  { rewrite (update_dns_ip_missing_token _ _ _ Ht). constructor. }
  destruct (secrets !! "ZONE_ID") as [zone|] eqn:Hz; last first.
  { rewrite (update_dns_ip_missing_zone _ _ _ _ Ht Hz). constructor. }
  destruct (secrets !! "RECORD_ID") as [rid|] eqn:Hr; last first.
  { rewrite (update_dns_ip_missing_record _ _ _ _ _ Ht Hz Hr). constructor. }
  rewrite (update_dns_ip_run w strict _ _ _ _ (cloudflare_client_Some _ _ Ht) Hz Hr).
  simpl.
  repeat match goal with
         | |- context [match ?x with _ => _ end] => destruct x
         end; simpl; constructor.
Qed.

(** An update call in the log means every earlier step succeeded. *)
Lemma update_issued w strict secrets client kwargs :
  DnsRecordsUpdate client kwargs ∈ (run (update_dns_ip strict secrets) w).1 →
  ∃ zone rid record pub_ip_info ip,
    cloudflare_client secrets = inr client
    ∧ secrets !! "ZONE_ID" = Some zone
    ∧ secrets !! "RECORD_ID" = Some rid
    ∧ dns_records_get w client zone rid = inr record
    ∧ (run (get_public_ip strict) w).2 = inr pub_ip_info
    ∧ py_getitem pub_ip_info "ip" = inr ip
    ∧ str_ne (Rec.content record) ip = true
    ∧ kwargs = update_kwargs record ip zone
    ∧ (run (update_dns_ip strict secrets) w).1 =
        [DnsRecordsGet client zone rid; RequestsGet ifconfig_url ifconfig_headers;
         DnsRecordsUpdate client kwargs].
Proof.
  destruct (secrets !! "CLOUDFLARE_API_TOKEN") as [token|] eqn:Ht; last first.
  { rewrite (update_dns_ip_missing_token _ _ _ Ht). by intros ?%elem_of_nil. }
  destruct (secrets !! "ZONE_ID") as [zone|] eqn:Hz; last first.
  { rewrite (update_dns_ip_missing_zone _ _ _ _ Ht Hz). by intros ?%elem_of_nil. }
  destruct (secrets !! "RECORD_ID") as [rid|] eqn:Hr; last first.
  { rewrite (update_dns_ip_missing_record _ _ _ _ _ Ht Hz Hr). by intros ?%elem_of_nil. }
  pose proof (cloudflare_client_Some _ _ Ht) as Hclient.
  rewrite (update_dns_ip_run w strict _ _ _ _ Hclient Hz Hr). simpl.
  destruct (dns_records_get w _ zone rid) as [e|record] eqn:Hget; simpl.
  { rewrite !elem_of_cons, elem_of_nil. intros H; destruct_or?; by simplify_eq. }
  destruct (run (get_public_ip strict) w).2 as [e|info] eqn:Hinfo; simpl.
  { rewrite !elem_of_cons, elem_of_nil. intros H; destruct_or?; by simplify_eq. }
  destruct (py_getitem info "ip") as [e|ip] eqn:Hip; simpl.
  { rewrite !elem_of_cons, elem_of_nil. intros H; destruct_or?; by simplify_eq. }
  destruct (str_ne (Rec.content record) ip) eqn:Hne; simpl; last first.
  { rewrite !elem_of_cons, elem_of_nil. intros H; destruct_or?; by simplify_eq. }
  rewrite !elem_of_cons, elem_of_nil. intros H; destruct_or?; simplify_eq.
  exists zone, rid, record, info, ip. by rewrite Hclient.
Qed.

Lemma no_update_in_log (log : list call) :
  (∀ client kwargs, DnsRecordsUpdate client kwargs ∉ log) →
  List.filter is_update log = [].
Proof.
  induction log as [|c log IH]; intros H; [done|]. simpl.
  destruct c; simpl; try (apply IH; intros cl kw Hin; apply (H cl kw); by right).
  exfalso. eapply H. by left.
Qed.

(** ** The lookup (lines 40-47) *)

(** C4 as first stated fails: status 300 is not a 2xx status, yet the strict
    lookup returns the decoded body, and [update_dns_ip] goes on to compare
    and issues the update. *)
Lemma strict_lookup_passes_status_300 :
  ¬ (200 <= status_code response_300 < 300)
  ∧ run (get_public_ip true) (world_of (inr record_1234) (inr response_300))
    = ([RequestsGet ifconfig_url ifconfig_headers], inr (ip_info "5.6.7.8"))
  ∧ length (List.filter is_update
      (run (update_dns_ip true secrets_ok)
           (world_of (inr record_1234) (inr response_300))).1) = 1%nat.
Proof. split; [simpl; lia |]. by vm_compute. Qed.

(** C4, amended.  When the lookup service answers with a 4xx or 5xx status
    and the strict flag is set, [get_public_ip] raises [HTTPError] carrying
    that response (its status code and its body).  In [update_dns_ip] with
    complete credentials and a successful read, the error surfaces after the
    read and the lookup; and whatever the credentials, no update call is
    issued. *)
Theorem strict_error_status_raises_HTTPError w (secrets : gmap string string) response :
  requests_get w ifconfig_url ifconfig_headers = inr response →
  400 <= status_code response < 600 →
  run (get_public_ip true) w =
    ([RequestsGet ifconfig_url ifconfig_headers], inl (HTTPError response))
  ∧ (∀ client zone rid record,
       cloudflare_client secrets = inr client →
       secrets !! "ZONE_ID" = Some zone →
       secrets !! "RECORD_ID" = Some rid →
       dns_records_get w client zone rid = inr record →
       run (update_dns_ip true secrets) w =
         ([DnsRecordsGet client zone rid; RequestsGet ifconfig_url ifconfig_headers],
          inl (HTTPError response)))
  ∧ List.filter is_update (run (update_dns_ip true secrets) w).1 = [].
Proof.
  intros Hresp Hstatus.
  assert (run (get_public_ip true) w =
          ([RequestsGet ifconfig_url ifconfig_headers], inl (HTTPError response))) as Hrun.
  { unfold run. rewrite get_public_ip_run, Hresp. simpl.
    assert ((400 <=? status_code response) && (status_code response <? 600) = true) as ->; [|done].
    apply andb_true_iff. split; [apply Z.leb_le | apply Z.ltb_lt]; lia. }
  split_and!; [done | |].
  - intros client zone rid record Hclient Hz Hr Hget.
    by rewrite (update_dns_ip_run w true _ _ _ _ Hclient Hz Hr), Hget, Hrun.
  - apply no_update_in_log. intros client kwargs Hin.
    apply update_issued in Hin as (? & ? & ? & ? & ? & _ & _ & _ & _ & Hinfo & _).
    rewrite Hrun in Hinfo. discriminate.
Qed.

Lemma strict_error_status_raises_HTTPError_witness :
  run (get_public_ip true) (world_of (inr record_1234) (inr response_500)) =
    ([RequestsGet ifconfig_url ifconfig_headers], inl (HTTPError response_500))
  ∧ (∀ client zone rid record,
       cloudflare_client secrets_ok = inr client →
       secrets_ok !! "ZONE_ID" = Some zone →
       secrets_ok !! "RECORD_ID" = Some rid →
       dns_records_get (world_of (inr record_1234) (inr response_500)) client zone rid
         = inr record →
       run (update_dns_ip true secrets_ok) (world_of (inr record_1234) (inr response_500)) =
         ([DnsRecordsGet client zone rid; RequestsGet ifconfig_url ifconfig_headers],
          inl (HTTPError response_500)))
  ∧ List.filter is_update
      (run (update_dns_ip true secrets_ok)
           (world_of (inr record_1234) (inr response_500))).1 = [].
Proof.
  apply (strict_error_status_raises_HTTPError
           (world_of (inr record_1234) (inr response_500)) secrets_ok response_500).
  - reflexivity.
  - simpl. lia.
Defined.

(** C5 as first stated fails: with the strict flag off, a 500 answer whose
    body is zero-length is not returned as a mapping; [json()] raises its
    decode error. *)
Lemma non_strict_blank_body_is_not_returned :
  ¬ non_strict_always_returns_mapping (world_of (inr record_1234) (inr response_500_blank))
  ∧ run (get_public_ip false) (world_of (inr record_1234) (inr response_500_blank))
    = ([RequestsGet ifconfig_url ifconfig_headers], inl (JSONDecodeError EmptyString)).
Proof.
  split; [|by vm_compute].
  intros H. destruct (H response_500_blank eq_refl) as [d Hd].
  vm_compute in Hd. discriminate.
Qed.

(** C5, amended.  With the strict flag off, whatever the status of the
    answer, [get_public_ip] issues the one GET and never raises [HTTPError].
    When the body is a JSON document, the decoded value is returned as it
    is: a key-value mapping when the body is a JSON object, the empty and
    the error-shaped ones included.  When the body is not a JSON document (a
    zero-length body included), the decode error of [json()] is raised. *)
Theorem non_strict_outcome_is_the_decoding w response :
  requests_get w ifconfig_url ifconfig_headers = inr response →
  (∀ d : gmap string pyval, json_value response = Some (PyDict d) →
     run (get_public_ip false) w =
       ([RequestsGet ifconfig_url ifconfig_headers], inr (PyDict d)))
  ∧ (∀ v, json_value response = Some v →
       run (get_public_ip false) w = ([RequestsGet ifconfig_url ifconfig_headers], inr v))
  ∧ (json_value response = None →
       run (get_public_ip false) w =
         ([RequestsGet ifconfig_url ifconfig_headers],
          inl (JSONDecodeError (text response))))
  ∧ (∀ r, (run (get_public_ip false) w).2 ≠ inl (HTTPError r)).
Proof.
  intros Hresp. unfold run. rewrite get_public_ip_run, Hresp. simpl.
  split_and!.
  - by intros d ->.
  - by intros v ->.
  - by intros ->.
  - intros r. by destruct (json_value response).
Qed.

Lemma non_strict_outcome_is_the_decoding_witness :
  (∀ d : gmap string pyval, json_value response_500_empty = Some (PyDict d) →
     run (get_public_ip false) (world_of (inr record_1234) (inr response_500_empty)) =
       ([RequestsGet ifconfig_url ifconfig_headers], inr (PyDict d)))
  ∧ (∀ v, json_value response_500_empty = Some v →
       run (get_public_ip false) (world_of (inr record_1234) (inr response_500_empty))
       = ([RequestsGet ifconfig_url ifconfig_headers], inr v))
  ∧ (json_value response_500_empty = None →
       run (get_public_ip false) (world_of (inr record_1234) (inr response_500_empty)) =
         ([RequestsGet ifconfig_url ifconfig_headers],
          inl (JSONDecodeError (text response_500_empty))))
  ∧ (∀ r, (run (get_public_ip false)
              (world_of (inr record_1234) (inr response_500_empty))).2 ≠ inl (HTTPError r)).
Proof.
  apply (non_strict_outcome_is_the_decoding
           (world_of (inr record_1234) (inr response_500_empty)) response_500_empty).
  reflexivity.
Defined.

Example non_strict_500_empty :
  run (get_public_ip false) (world_of (inr record_1234) (inr response_500_empty))
  = ([RequestsGet ifconfig_url ifconfig_headers], inr (PyDict ∅)).
Proof. by vm_compute. Qed.

(** ** Ordering and number of calls (lines 80-95) *)

(** C6.  In every invocation, whatever the world and the credentials: a
    lookup call in the log has a provider read before it, and every read is
    before every lookup; the log holds at most one update call; and when the
    lookup fails in this world, the log holds no update call. *)
Theorem fetch_precedes_lookup_at_most_one_write w strict (secrets : gmap string string) :
  let log := (run (update_dns_ip strict secrets) w).1 in
  (∀ i c, log !! i = Some c → is_lookup c = true →
     ∃ j c', (j < i)%nat ∧ log !! j = Some c' ∧ is_fetch c' = true)
  ∧ (∀ i j c c', log !! i = Some c → log !! j = Some c' →
       is_fetch c = true → is_lookup c' = true → (i < j)%nat)
  ∧ (length (List.filter is_update log) ≤ 1)%nat
  ∧ (∀ e, (run (get_public_ip strict) w).2 = inl e → List.filter is_update log = []).
Proof.
  intros log. split_and!.
  - intros i c Hi Hc. subst log.
    destruct (update_dns_ip_log_shape w strict secrets);
      repeat (destruct i as [|i]; simpl in Hi; simplify_eq; try discriminate);
      exists 0%nat; eexists; (split; [lia|split; [reflexivity|done]]).
  - intros i j c c' Hi Hj Hc Hc'. subst log.
    destruct (update_dns_ip_log_shape w strict secrets);
      repeat (destruct i as [|i]; simpl in Hi; simplify_eq; try discriminate);
      repeat (destruct j as [|j]; simpl in Hj; simplify_eq; try discriminate);
      lia.
  - subst log. destruct (update_dns_ip_log_shape w strict secrets); simpl; lia.
  - intros e He. apply no_update_in_log. intros client kwargs Hin.
    apply update_issued in Hin as (? & ? & ? & ? & ? & _ & _ & _ & _ & Hinfo & _).
    rewrite He in Hinfo. discriminate.
Qed.

Lemma fetch_precedes_lookup_at_most_one_write_witness :
  let log := (run (update_dns_ip true secrets_ok)
                  (world_of (inr record_1234) (inr response_500))).1 in
  (∀ i c, log !! i = Some c → is_lookup c = true →
     ∃ j c', (j < i)%nat ∧ log !! j = Some c' ∧ is_fetch c' = true)
  ∧ (∀ i j c c', log !! i = Some c → log !! j = Some c' →
       is_fetch c = true → is_lookup c' = true → (i < j)%nat)
  ∧ (length (List.filter is_update log) ≤ 1)%nat
  ∧ (∀ e, (run (get_public_ip true)
              (world_of (inr record_1234) (inr response_500))).2 = inl e →
       List.filter is_update log = []).
Proof.
  exact (fetch_precedes_lookup_at_most_one_write
           (world_of (inr record_1234) (inr response_500)) true secrets_ok).
Defined.

Example run_strict_500 :
  run (update_dns_ip true secrets_ok) (world_of (inr record_1234) (inr response_500))
  = ([DnsRecordsGet client_ok "zone-1" "rec-1"; RequestsGet ifconfig_url ifconfig_headers],
     inl (HTTPError response_500)).
Proof. by vm_compute. Qed.

(** C7.  In non-strict mode, when the lookup response decodes to a mapping
    without an ["ip"] key, [update_dns_ip] (with complete credentials and a
    successful read) raises [KeyError "ip"] where line 87 subscripts the
    mapping, after the read and the lookup, and issues no update call. *)
Theorem missing_ip_key_raises_KeyError
    w secrets client zone rid record response (d : gmap string pyval) :
  cloudflare_client secrets = inr client →
  secrets !! "ZONE_ID" = Some zone →
  secrets !! "RECORD_ID" = Some rid →
  dns_records_get w client zone rid = inr record →
  requests_get w ifconfig_url ifconfig_headers = inr response →
  json_value response = Some (PyDict d) →
  d !! "ip" = None →
  run (update_dns_ip false secrets) w =
    ([DnsRecordsGet client zone rid; RequestsGet ifconfig_url ifconfig_headers],
     inl (KeyError "ip"))
  ∧ List.filter is_update (run (update_dns_ip false secrets) w).1 = [].
Proof.
  intros Hclient Hz Hr Hget Hresp Hjson Hd.
  rewrite (update_dns_ip_run w false _ _ _ _ Hclient Hz Hr), Hget.
  unfold run. rewrite get_public_ip_run, Hresp. simpl. rewrite Hjson. simpl.
  by rewrite (getitem_None _ _ Hd).
Qed.

Lemma missing_ip_key_raises_KeyError_witness :
  run (update_dns_ip false secrets_ok)
      (world_of (inr record_1234) (inr response_500_empty)) =
    ([DnsRecordsGet client_ok "zone-1" "rec-1"; RequestsGet ifconfig_url ifconfig_headers],
     inl (KeyError "ip"))
  ∧ List.filter is_update
      (run (update_dns_ip false secrets_ok)
           (world_of (inr record_1234) (inr response_500_empty))).1 = [].
Proof.
  apply (missing_ip_key_raises_KeyError
           (world_of (inr record_1234) (inr response_500_empty))
           secrets_ok client_ok "zone-1" "rec-1" record_1234 response_500_empty ∅);
    vm_compute; reflexivity.
Defined.

(** ** How the update is addressed and what it carries (lines 89-95) *)

(** Line 92 passes [record.id], the id of the fetched record, and not
    [secrets["RECORD_ID"]]. *)
Lemma update_not_addressed_as_configured :
  ¬ update_addressed_as_configured
      (world_of (inr record_other_id) (inr (response_ok "5.6.7.8"))) true secrets_ok.
Proof.
  intros H.
  destruct (H client_ok (update_kwargs record_other_id (PyStr "5.6.7.8") "zone-1"))
    as [_ Hid].
  - vm_compute. do 2 right. left.
  - vm_compute in Hid. discriminate.
Qed.

(** C8, amended.  An update call in the log goes through the client of the
    read, carries the configured ZONE_ID as [zone_id], and carries as
    [dns_record_id] the [id] of the record the read returned; that is the
    configured RECORD_ID whenever the provider returned a record bearing the
    id it was asked for. *)
Theorem update_addressed_to_zone_and_fetched_id
    w strict (secrets : gmap string string) client (kwargs : gmap string pyval) :
  DnsRecordsUpdate client kwargs ∈ (run (update_dns_ip strict secrets) w).1 →
  ∃ zone rid record,
    secrets !! "ZONE_ID" = Some zone
    ∧ secrets !! "RECORD_ID" = Some rid
    ∧ DnsRecordsGet client zone rid ∈ (run (update_dns_ip strict secrets) w).1
    ∧ dns_records_get w client zone rid = inr record
    ∧ kwargs !! "zone_id" = Some (PyStr zone)
    ∧ kwargs !! "dns_record_id" = Some (PyStr (Rec.id record))
    ∧ (Rec.id record = rid → kwargs !! "dns_record_id" = Some (PyStr rid)).
Proof.
  intros Hin.
  apply update_issued in Hin
    as (zone & rid & record & info & ip & _ & Hz & Hr & Hget & _ & _ & _ & -> & Hlog).
  exists zone, rid, record. rewrite Hlog.
  split_and!; try done.
  - by left.
  - intros <-. unfold update_kwargs. by simplify_map_eq.
Qed.

Lemma update_addressed_to_zone_and_fetched_id_witness :
  ∃ zone rid record,
    secrets_ok !! "ZONE_ID" = Some zone
    ∧ secrets_ok !! "RECORD_ID" = Some rid
    ∧ DnsRecordsGet client_ok zone rid ∈
        (run (update_dns_ip true secrets_ok)
             (world_of (inr record_1234) (inr (response_ok "5.6.7.8")))).1
    ∧ dns_records_get (world_of (inr record_1234) (inr (response_ok "5.6.7.8")))
        client_ok zone rid = inr record
    ∧ update_kwargs record_1234 (PyStr "5.6.7.8") "zone-1" !! "zone_id" = Some (PyStr zone)
    ∧ update_kwargs record_1234 (PyStr "5.6.7.8") "zone-1" !! "dns_record_id"
        = Some (PyStr (Rec.id record))
    ∧ (Rec.id record = rid →
       update_kwargs record_1234 (PyStr "5.6.7.8") "zone-1" !! "dns_record_id"
         = Some (PyStr rid)).
Proof.
  apply (update_addressed_to_zone_and_fetched_id
           (world_of (inr record_1234) (inr (response_ok "5.6.7.8")))
           true secrets_ok client_ok
           (update_kwargs record_1234 (PyStr "5.6.7.8") "zone-1")).
  vm_compute. do 2 right. left.
Defined.

(** C10.  The keyword arguments of an update call in the log are exactly
    [name], [type], [content] and the two identifiers [dns_record_id] and
    [zone_id]; they are the ones the call would carry had the fetched record
    no other attribute at all, so nothing of [extra] (ttl, proxied, comment,
    ...) is forwarded. *)
Theorem update_forwards_only_name_type_content
    w strict (secrets : gmap string string) client (kwargs : gmap string pyval) :
  DnsRecordsUpdate client kwargs ∈ (run (update_dns_ip strict secrets) w).1 →
  dom kwargs = ({[ "name"; "type"; "content"; "dns_record_id"; "zone_id" ]} : gset string)
  ∧ ∃ zone rid record ip,
      dns_records_get w client zone rid = inr record
      ∧ kwargs = update_kwargs (read_fields record) ip zone
      ∧ ∀ key, key ∈ dom (Rec.extra record) →
          key ∉ ["name"; "type"; "content"; "dns_record_id"; "zone_id"] →
          kwargs !! key = None.
Proof.
  intros Hin.
  apply update_issued in Hin
    as (zone & rid & record & info & ip & _ & _ & _ & Hget & _ & _ & _ & -> & _).
  assert (dom (update_kwargs record ip zone)
          = ({[ "name"; "type"; "content"; "dns_record_id"; "zone_id" ]} : gset string))
    as Hdom.
  { unfold update_kwargs. rewrite !dom_insert_L, dom_singleton_L. set_solver. }
  split; [done|].
  exists zone, rid, record, ip. split_and!; [done | reflexivity |].
  intros key _ Hkey. apply not_elem_of_dom. rewrite Hdom.
  rewrite !elem_of_cons, elem_of_nil in Hkey.
  rewrite !elem_of_union, !elem_of_singleton. tauto.
Qed.

Lemma update_forwards_only_name_type_content_witness :
  dom (update_kwargs record_1234 (PyStr "5.6.7.8") "zone-1")
    = ({[ "name"; "type"; "content"; "dns_record_id"; "zone_id" ]} : gset string)
  ∧ ∃ zone rid record ip,
      dns_records_get (world_of (inr record_1234) (inr (response_ok "5.6.7.8")))
        client_ok zone rid = inr record
      ∧ update_kwargs record_1234 (PyStr "5.6.7.8") "zone-1"
          = update_kwargs (read_fields record) ip zone
      ∧ ∀ key, key ∈ dom (Rec.extra record) →
          key ∉ ["name"; "type"; "content"; "dns_record_id"; "zone_id"] →
          update_kwargs record_1234 (PyStr "5.6.7.8") "zone-1" !! key = None.
Proof.
  apply (update_forwards_only_name_type_content
           (world_of (inr record_1234) (inr (response_ok "5.6.7.8")))
           true secrets_ok client_ok
           (update_kwargs record_1234 (PyStr "5.6.7.8") "zone-1")).
  vm_compute. do 2 right. left.
Defined.

Example ttl_not_forwarded :
  Rec.extra record_1234 !! "ttl" = Some (PyInt 300)
  ∧ update_kwargs record_1234 (PyStr "5.6.7.8") "zone-1" !! "ttl" = None.
Proof. by vm_compute. Qed.

(** ** Further properties of the two functions *)

(** X1.  When the provider rejects the read, [update_dns_ip] raises the
    provider's error unchanged and stops there: the read is the only call,
    the lookup service is not contacted. *)
Theorem read_failure_stops_before_lookup w strict secrets client zone rid e :
  cloudflare_client secrets = inr client →
  secrets !! "ZONE_ID" = Some zone →
  secrets !! "RECORD_ID" = Some rid →
  dns_records_get w client zone rid = inl e →
  run (update_dns_ip strict secrets) w = ([DnsRecordsGet client zone rid], inl e)
  ∧ List.filter is_lookup (run (update_dns_ip strict secrets) w).1 = [].
Proof.
  intros Hclient Hz Hr Hget.
  by rewrite (update_dns_ip_run w strict _ _ _ _ Hclient Hz Hr), Hget.
Qed.

Lemma read_failure_stops_before_lookup_witness :
  run (update_dns_ip true secrets_ok)
      (world_of (inl (APIError "record not found")) (inr (response_ok "5.6.7.8")))
  = ([DnsRecordsGet client_ok "zone-1" "rec-1"], inl (APIError "record not found"))
  ∧ List.filter is_lookup
      (run (update_dns_ip true secrets_ok)
           (world_of (inl (APIError "record not found")) (inr (response_ok "5.6.7.8")))).1
    = [].
Proof.
  apply (read_failure_stops_before_lookup
           (world_of (inl (APIError "record not found")) (inr (response_ok "5.6.7.8")))
           true secrets_ok client_ok "zone-1" "rec-1" (APIError "record not found"));
    vm_compute; reflexivity.
Defined.

(** X2.  When [requests.get] itself raises (no response at all), the error
    leaves [get_public_ip] unchanged in both modes; [update_dns_ip] raises it
    after the read and issues no update call. *)
Theorem lookup_transport_failure_propagates w strict (secrets : gmap string string) e :
  requests_get w ifconfig_url ifconfig_headers = inl e →
  run (get_public_ip strict) w = ([RequestsGet ifconfig_url ifconfig_headers], inl e)
  ∧ (∀ client zone rid record,
       cloudflare_client secrets = inr client →
       secrets !! "ZONE_ID" = Some zone →
       secrets !! "RECORD_ID" = Some rid →
       dns_records_get w client zone rid = inr record →
       run (update_dns_ip strict secrets) w =
         ([DnsRecordsGet client zone rid; RequestsGet ifconfig_url ifconfig_headers],
          inl e))
  ∧ List.filter is_update (run (update_dns_ip strict secrets) w).1 = [].
Proof.
  intros Hreq.
  assert (run (get_public_ip strict) w
          = ([RequestsGet ifconfig_url ifconfig_headers], inl e)) as Hrun.
  { unfold run. by rewrite get_public_ip_run, Hreq. }
  split_and!; [done | |].
  - intros client zone rid record Hclient Hz Hr Hget.
    by rewrite (update_dns_ip_run w strict _ _ _ _ Hclient Hz Hr), Hget, Hrun.
  - apply no_update_in_log. intros client kwargs Hin.
    apply update_issued in Hin as (? & ? & ? & ? & ? & _ & _ & _ & _ & Hinfo & _).
    rewrite Hrun in Hinfo. discriminate.
Qed.

Lemma lookup_transport_failure_propagates_witness :
  run (get_public_ip false)
      (world_of (inr record_1234) (inl (RequestException "connection refused")))
  = ([RequestsGet ifconfig_url ifconfig_headers], inl (RequestException "connection refused"))
  ∧ (∀ client zone rid record,
       cloudflare_client secrets_ok = inr client →
       secrets_ok !! "ZONE_ID" = Some zone →
       secrets_ok !! "RECORD_ID" = Some rid →
       dns_records_get
         (world_of (inr record_1234) (inl (RequestException "connection refused")))
         client zone rid = inr record →
       run (update_dns_ip false secrets_ok)
           (world_of (inr record_1234) (inl (RequestException "connection refused"))) =
         ([DnsRecordsGet client zone rid; RequestsGet ifconfig_url ifconfig_headers],
          inl (RequestException "connection refused")))
  ∧ List.filter is_update
      (run (update_dns_ip false secrets_ok)
           (world_of (inr record_1234) (inl (RequestException "connection refused")))).1
    = [].
Proof.
  apply (lookup_transport_failure_propagates
           (world_of (inr record_1234) (inl (RequestException "connection refused")))
           false secrets_ok (RequestException "connection refused")).
  reflexivity.
Defined.

(** The flag reaches the reconciliation through the lookup only. *)
Lemma update_dns_ip_flag_congr w strict strict' (secrets : gmap string string) :
  (run (get_public_ip strict) w).2 = (run (get_public_ip strict') w).2 →
  run (update_dns_ip strict secrets) w = run (update_dns_ip strict' secrets) w.
Proof.
  intros Heq.
  destruct (secrets !! "CLOUDFLARE_API_TOKEN") as [token|] eqn:Ht; last first.
  { by rewrite !(update_dns_ip_missing_token _ _ _ Ht). }
  destruct (secrets !! "ZONE_ID") as [zone|] eqn:Hz; last first.
  { by rewrite !(update_dns_ip_missing_zone _ _ _ _ Ht Hz). }
  destruct (secrets !! "RECORD_ID") as [rid|] eqn:Hr; last first.
  { by rewrite !(update_dns_ip_missing_record _ _ _ _ _ Ht Hz Hr). }
  pose proof (cloudflare_client_Some _ _ Ht) as Hclient.
  rewrite (update_dns_ip_run w strict _ _ _ _ Hclient Hz Hr).
  rewrite (update_dns_ip_run w strict' _ _ _ _ Hclient Hz Hr).
  by rewrite Heq.
Qed.

(** X3.  The flag matters for 4xx and 5xx answers only: when the lookup
    service does not answer with such a status (another status, or no
    response at all), strict and non-strict runs coincide, for the lookup
    alone and for the whole reconciliation, call log and result alike. *)
Theorem strict_flag_only_matters_for_error_status w (secrets : gmap string string) :
  (∀ response, requests_get w ifconfig_url ifconfig_headers = inr response →
               ¬ is_error_status response) →
  run (get_public_ip true) w = run (get_public_ip false) w
  ∧ run (update_dns_ip true secrets) w = run (update_dns_ip false secrets) w.
Proof.
  intros Hstatus.
  assert (run (get_public_ip true) w = run (get_public_ip false) w) as Hrun.
  { unfold run. rewrite !get_public_ip_run. f_equal.
    destruct (requests_get w ifconfig_url ifconfig_headers) as [e|response] eqn:Hreq;
      [done|].
    specialize (Hstatus response eq_refl). unfold is_error_status in Hstatus. simpl.
    destruct (400 <=? status_code response) eqn:Hlo; [|done].
    destruct (status_code response <? 600) eqn:Hhi; [|done].
    apply Z.leb_le in Hlo. apply Z.ltb_lt in Hhi. lia. }
  split; [done|]. apply update_dns_ip_flag_congr. by rewrite Hrun.
Qed.

Lemma strict_flag_only_matters_for_error_status_witness :
  run (get_public_ip true) (world_of (inr record_1234) (inr response_300))
  = run (get_public_ip false) (world_of (inr record_1234) (inr response_300))
  ∧ run (update_dns_ip true secrets_ok) (world_of (inr record_1234) (inr response_300))
    = run (update_dns_ip false secrets_ok) (world_of (inr record_1234) (inr response_300)).
Proof.
  apply (strict_flag_only_matters_for_error_status
           (world_of (inr record_1234) (inr response_300)) secrets_ok).
  intros response Hreq. simpl in Hreq. injection Hreq as <-.
  unfold is_error_status. simpl. lia.
Defined.

(** X4.  When the body of the answer is not a JSON document and the status
    check does not raise first (non-strict mode, or a status outside 4xx and
    5xx), [get_public_ip] raises the decode error of [json()], and
    [update_dns_ip] issues no update call. *)
Theorem undecodable_body_raises_JSONDecodeError
    w strict (secrets : gmap string string) response :
  requests_get w ifconfig_url ifconfig_headers = inr response →
  json_value response = None →
  strict = false ∨ ¬ is_error_status response →
  run (get_public_ip strict) w =
    ([RequestsGet ifconfig_url ifconfig_headers], inl (JSONDecodeError (text response)))
  ∧ List.filter is_update (run (update_dns_ip strict secrets) w).1 = [].
Proof.
  intros Hreq Hjson Hmode.
  assert (run (get_public_ip strict) w =
          ([RequestsGet ifconfig_url ifconfig_headers],
           inl (JSONDecodeError (text response)))) as Hrun.
  { unfold run. rewrite get_public_ip_run, Hreq. simpl. rewrite Hjson.
    destruct Hmode as [->|Hstatus]; [done|].
    unfold is_error_status in Hstatus.
    destruct strict; [|done]. simpl.
    destruct (400 <=? status_code response) eqn:Hlo; [|done].
    destruct (status_code response <? 600) eqn:Hhi; [|done].
    apply Z.leb_le in Hlo. apply Z.ltb_lt in Hhi. lia. }
  split; [done|].
  apply no_update_in_log. intros client kwargs Hin.
  apply update_issued in Hin as (? & ? & ? & ? & ? & _ & _ & _ & _ & Hinfo & _).
  rewrite Hrun in Hinfo. discriminate.
Qed.

Lemma undecodable_body_raises_JSONDecodeError_witness :
  run (get_public_ip true) (world_of (inr record_1234) (inr response_html_200)) =
    ([RequestsGet ifconfig_url ifconfig_headers],
     inl (JSONDecodeError "<html>maintenance</html>"))
  ∧ List.filter is_update
      (run (update_dns_ip true secrets_ok)
           (world_of (inr record_1234) (inr response_html_200))).1 = [].
Proof.
  apply (undecodable_body_raises_JSONDecodeError
           (world_of (inr record_1234) (inr response_html_200))
           true secrets_ok response_html_200).
  - reflexivity.
  - reflexivity.
  - right. unfold is_error_status. simpl. lia.
Defined.

(** X5.  When the lookup decodes to something that is not a mapping (a
    list, a string, a number, null), subscripting it with ["ip"] at line 87
    raises [TypeError]: [update_dns_ip] stops after the read and the lookup,
    and no update call is issued. *)
Theorem non_mapping_lookup_raises_TypeError
    w strict secrets client zone rid record pub_ip_info :
  cloudflare_client secrets = inr client →
  secrets !! "ZONE_ID" = Some zone →
  secrets !! "RECORD_ID" = Some rid →
  dns_records_get w client zone rid = inr record →
  (run (get_public_ip strict) w).2 = inr pub_ip_info →
  not_a_dict pub_ip_info →
  ∃ msg,
    run (update_dns_ip strict secrets) w =
      ([DnsRecordsGet client zone rid; RequestsGet ifconfig_url ifconfig_headers],
       inl (TypeError msg)).
Proof.
  intros Hclient Hz Hr Hget Hinfo Hnd.
  rewrite (update_dns_ip_run w strict _ _ _ _ Hclient Hz Hr), Hget, Hinfo.
  destruct pub_ip_info; simpl; try (eexists; reflexivity).
  by destruct (Hnd d).
Qed.

Lemma non_mapping_lookup_raises_TypeError_witness :
  ∃ msg,
    run (update_dns_ip true secrets_ok) (world_of (inr record_1234) (inr response_list)) =
      ([DnsRecordsGet client_ok "zone-1" "rec-1"; RequestsGet ifconfig_url ifconfig_headers],
       inl (TypeError msg)).
Proof.
  apply (non_mapping_lookup_raises_TypeError
           (world_of (inr record_1234) (inr response_list))
           true secrets_ok client_ok "zone-1" "rec-1" record_1234
           (PyList [PyStr "5.6.7.8"]));
    try (vm_compute; reflexivity).
  intros d. discriminate.
Defined.

(** X6.  The resolved value is not validated: when the ["ip"] entry of the
    mapping is not a string (null, a number, a list, ...), line 87 finds it
    different from the record's [content] whatever that is, and the update
    is issued with that value as [content]. *)
Theorem non_string_ip_is_sent_as_content
    w strict secrets client zone rid record (d : gmap string pyval) ip :
  cloudflare_client secrets = inr client →
  secrets !! "ZONE_ID" = Some zone →
  secrets !! "RECORD_ID" = Some rid →
  dns_records_get w client zone rid = inr record →
  (run (get_public_ip strict) w).2 = inr (PyDict d) →
  d !! "ip" = Some ip →
  not_a_str ip →
  ∃ kwargs : gmap string pyval,
    (run (update_dns_ip strict secrets) w).1 =
      [DnsRecordsGet client zone rid; RequestsGet ifconfig_url ifconfig_headers;
       DnsRecordsUpdate client kwargs]
    ∧ kwargs !! "content" = Some ip.
Proof.
  intros Hclient Hz Hr Hget Hinfo Hd Hns.
  exists (update_kwargs record ip zone).
  rewrite (update_dns_ip_run w strict _ _ _ _ Hclient Hz Hr), Hget, Hinfo.
  simpl. rewrite (getitem_Some _ _ _ Hd).
  assert (str_ne (Rec.content record) ip = true) as ->
    by (apply str_ne_true; intros Heq; by apply (Hns (Rec.content record))).
  split; [done|]. unfold update_kwargs. by simplify_map_eq.
Qed.

Lemma non_string_ip_is_sent_as_content_witness :
  ∃ kwargs : gmap string pyval,
    (run (update_dns_ip true secrets_ok)
         (world_of (inr record_1234) (inr response_null_ip))).1 =
      [DnsRecordsGet client_ok "zone-1" "rec-1"; RequestsGet ifconfig_url ifconfig_headers;
       DnsRecordsUpdate client_ok kwargs]
    ∧ kwargs !! "content" = Some PyNone.
Proof.
  apply (non_string_ip_is_sent_as_content
           (world_of (inr record_1234) (inr response_null_ip))
           true secrets_ok client_ok "zone-1" "rec-1" record_1234
           {[ "ip" := PyNone ]} PyNone);
    try (vm_compute; reflexivity).
  intros s. discriminate.
Defined.

(** X7.  Within one invocation the lookup service is called exactly when
    the provider read succeeded, and then once: the calls to [requests.get]
    in the log are the single GET of [get_public_ip] after a successful
    read, and there is none when a credential is missing or the read
    failed. *)
Theorem lookup_called_iff_read_succeeded w strict (secrets : gmap string string) :
  (read_succeeds w secrets →
     List.filter is_lookup (run (update_dns_ip strict secrets) w).1
       = [RequestsGet ifconfig_url ifconfig_headers])
  ∧ (¬ read_succeeds w secrets →
     List.filter is_lookup (run (update_dns_ip strict secrets) w).1 = []).
Proof.
  split.
  - intros (client & zone & rid & record & Hclient & Hz & Hr & Hget).
    rewrite (update_dns_ip_run w strict _ _ _ _ Hclient Hz Hr), Hget. simpl.
    repeat match goal with
           | |- context [match ?x with _ => _ end] => destruct x
           end; done.
  - intros Hnot.
    destruct (secrets !! "CLOUDFLARE_API_TOKEN") as [token|] eqn:Ht; last first.
    { by rewrite (update_dns_ip_missing_token _ _ _ Ht). }
    destruct (secrets !! "ZONE_ID") as [zone|] eqn:Hz; last first.
    { by rewrite (update_dns_ip_missing_zone _ _ _ _ Ht Hz). }
    destruct (secrets !! "RECORD_ID") as [rid|] eqn:Hr; last first.
    { by rewrite (update_dns_ip_missing_record _ _ _ _ _ Ht Hz Hr). }
    pose proof (cloudflare_client_Some _ _ Ht) as Hclient.
    rewrite (update_dns_ip_run w strict _ _ _ _ Hclient Hz Hr). simpl.
    destruct (dns_records_get w _ zone rid) as [e|record] eqn:Hget; [done|].
    destruct Hnot. by eexists _, zone, rid, record.
Qed.

Lemma lookup_called_iff_read_succeeded_witness :
  (read_succeeds (world_of (inr record_1234) (inr response_500)) secrets_ok →
     List.filter is_lookup
       (run (update_dns_ip true secrets_ok)
            (world_of (inr record_1234) (inr response_500))).1
       = [RequestsGet ifconfig_url ifconfig_headers])
  ∧ (¬ read_succeeds (world_of (inr record_1234) (inr response_500)) secrets_ok →
     List.filter is_lookup
       (run (update_dns_ip true secrets_ok)
            (world_of (inr record_1234) (inr response_500))).1 = []).
Proof.
  exact (lookup_called_iff_read_succeeded
           (world_of (inr record_1234) (inr response_500)) true secrets_ok).
Defined.

Example lookup_called_after_read :
  read_succeeds (world_of (inr record_1234) (inr response_500)) secrets_ok
  ∧ List.filter is_lookup
      (run (update_dns_ip true secrets_ok)
           (world_of (inr record_1234) (inr response_500))).1
    = [RequestsGet ifconfig_url ifconfig_headers].
Proof.
  split; [|by vm_compute].
  exists client_ok, "zone-1", "rec-1", record_1234. by vm_compute.
Qed.

(** X8.  The provider is contacted exactly when the three required keys are
    all present: the call log of [update_dns_ip] is non-empty if and only if
    CLOUDFLARE_API_TOKEN, ZONE_ID and RECORD_ID are in the keyword
    arguments.  CLOUDFLARE_EMAIL is not needed. *)
Theorem provider_contacted_iff_credentials_complete w strict (secrets : gmap string string) :
  (run (update_dns_ip strict secrets) w).1 ≠ []
  ↔ ∀ key, key ∈ required_keys → is_Some (secrets !! key).
Proof.
  split.
  - intros Hlog key Hkey.
    destruct (secrets !! "CLOUDFLARE_API_TOKEN") as [token|] eqn:Ht; last first.
    { by rewrite (update_dns_ip_missing_token _ _ _ Ht) in Hlog. }
    destruct (secrets !! "ZONE_ID") as [zone|] eqn:Hz; last first.
    { by rewrite (update_dns_ip_missing_zone _ _ _ _ Ht Hz) in Hlog. }
    destruct (secrets !! "RECORD_ID") as [rid|] eqn:Hr; last first.
    { by rewrite (update_dns_ip_missing_record _ _ _ _ _ Ht Hz Hr) in Hlog. }
    unfold required_keys in Hkey. rewrite !elem_of_cons, elem_of_nil in Hkey.
    destruct_or?; subst; by eexists.
  - intros Hall.
    destruct (Hall "CLOUDFLARE_API_TOKEN") as [token Ht]; [required_key|].
    destruct (Hall "ZONE_ID") as [zone Hz]; [required_key|].
    destruct (Hall "RECORD_ID") as [rid Hr]; [required_key|].
    rewrite (update_dns_ip_run w strict _ _ _ _ (cloudflare_client_Some _ _ Ht) Hz Hr).
    simpl.
    repeat match goal with
           | |- context [match ?x with _ => _ end] => destruct x
           end; done.
Qed.

Lemma provider_contacted_iff_credentials_complete_witness :
  (run (update_dns_ip true secrets_without_zone)
       (world_of (inr record_1234) (inr (response_ok "5.6.7.8")))).1 ≠ []
  ↔ ∀ key, key ∈ required_keys → is_Some (secrets_without_zone !! key).
Proof.
  exact (provider_contacted_iff_credentials_complete
           (world_of (inr record_1234) (inr (response_ok "5.6.7.8")))
           true secrets_without_zone).
Defined.

(** X9.  When several required keys are missing, the [KeyError] names the
    first one in the order the source subscripts them: the token (line 73)
    before ZONE_ID and RECORD_ID (line 81), ZONE_ID before RECORD_ID. *)
Theorem first_missing_key_is_reported w strict (secrets : gmap string string) key :
  key ∈ required_keys →
  secrets !! key = None →
  (∀ (i j : nat) key', required_keys !! i = Some key' → required_keys !! j = Some key →
                        (i < j)%nat → is_Some (secrets !! key')) →
  run (update_dns_ip strict secrets) w = ([], inl (KeyError key)).
Proof.
  intros Hkey Hnone Hbefore.
  unfold required_keys in Hkey. rewrite !elem_of_cons, elem_of_nil in Hkey.
  destruct_or?; subst; try done.
  - by apply update_dns_ip_missing_token.
  - destruct (Hbefore 0%nat 1%nat "CLOUDFLARE_API_TOKEN") as [token Ht];
      [done | done | lia |].
    by eapply update_dns_ip_missing_zone.
  - destruct (Hbefore 0%nat 2%nat "CLOUDFLARE_API_TOKEN") as [token Ht];
      [done | done | lia |].
    destruct (Hbefore 1%nat 2%nat "ZONE_ID") as [zone Hz];
      [done | done | lia |].
    by eapply update_dns_ip_missing_record.
Qed.

Lemma first_missing_key_is_reported_witness :
  run (update_dns_ip true secrets_without_zone)
      (world_of (inr record_1234) (inr (response_ok "5.6.7.8")))
  = ([], inl (KeyError "ZONE_ID")).
Proof.
  apply (first_missing_key_is_reported
           (world_of (inr record_1234) (inr (response_ok "5.6.7.8")))
           true secrets_without_zone "ZONE_ID").
  - required_key.
  - vm_compute. reflexivity.
  - intros i j key' Hi Hj Hlt.
    destruct j as [|[|[|j]]]; simpl in Hj; try discriminate.
    destruct i as [|i]; [|lia]. simpl in Hi. injection Hi as <-.
    vm_compute. by eexists.
Defined.

(** X10.  The read is addressed as configured: a read call in the log is
    the first call, goes through the client built from the credentials, and
    carries the configured ZONE_ID and RECORD_ID. *)
Theorem read_addressed_as_configured
    w strict (secrets : gmap string string) client zone rid :
  DnsRecordsGet client zone rid ∈ (run (update_dns_ip strict secrets) w).1 →
  cloudflare_client secrets = inr client
  ∧ secrets !! "ZONE_ID" = Some zone
  ∧ secrets !! "RECORD_ID" = Some rid
  ∧ (run (update_dns_ip strict secrets) w).1 !! 0%nat = Some (DnsRecordsGet client zone rid).
Proof.
  destruct (secrets !! "CLOUDFLARE_API_TOKEN") as [token|] eqn:Ht; last first.
  { rewrite (update_dns_ip_missing_token _ _ _ Ht). by intros ?%elem_of_nil. }
  destruct (secrets !! "ZONE_ID") as [zone0|] eqn:Hz; last first.
  { rewrite (update_dns_ip_missing_zone _ _ _ _ Ht Hz). by intros ?%elem_of_nil. }
  destruct (secrets !! "RECORD_ID") as [rid0|] eqn:Hr; last first.
  { rewrite (update_dns_ip_missing_record _ _ _ _ _ Ht Hz Hr). by intros ?%elem_of_nil. }
  pose proof (cloudflare_client_Some _ _ Ht) as Hclient.
  rewrite (update_dns_ip_run w strict _ _ _ _ Hclient Hz Hr). simpl.
  repeat match goal with
         | |- context [match ?x with _ => _ end] => destruct x
         end; simpl;
    rewrite ?elem_of_cons, ?elem_of_nil; intros H; destruct_or?; simplify_eq;
    by rewrite Hclient.
Qed.

Lemma read_addressed_as_configured_witness :
  cloudflare_client secrets_ok = inr client_ok
  ∧ secrets_ok !! "ZONE_ID" = Some "zone-1"
  ∧ secrets_ok !! "RECORD_ID" = Some "rec-1"
  ∧ (run (update_dns_ip true secrets_ok)
         (world_of (inr record_1234) (inr (response_ok "1.2.3.4")))).1 !! 0%nat
    = Some (DnsRecordsGet client_ok "zone-1" "rec-1").
Proof.
  apply (read_addressed_as_configured
           (world_of (inr record_1234) (inr (response_ok "1.2.3.4")))
           true secrets_ok client_ok "zone-1" "rec-1").
  vm_compute. left.
Defined.

(** X11.  Reconciliation settles.  Suppose one invocation issued an update,
    and the next invocation (same credentials) reads a record whose
    [content] is the string that update sent while the lookup answers as
    before.  Then the next invocation returns [None] and issues no update:
    its calls are the read and the lookup. *)
Theorem rerun_after_update_is_in_sync
    w w' strict strict' (secrets : gmap string string) client zone rid
    (kwargs : gmap string pyval) record' :
  DnsRecordsUpdate client kwargs ∈ (run (update_dns_ip strict secrets) w).1 →
  secrets !! "ZONE_ID" = Some zone →
  secrets !! "RECORD_ID" = Some rid →
  dns_records_get w' client zone rid = inr record' →
  kwargs !! "content" = Some (PyStr (Rec.content record')) →
  (run (get_public_ip strict') w').2 = (run (get_public_ip strict) w).2 →
  run (update_dns_ip strict' secrets) w' =
    ([DnsRecordsGet client zone rid; RequestsGet ifconfig_url ifconfig_headers],
     inr None).
Proof.
  intros Hin Hz Hr Hget' Hcontent Hsame.
  apply update_issued in Hin
    as (zone0 & rid0 & record & info & ip & Hclient & _ & _ & _ & Hinfo & Hip & _ & -> & _).
  assert (ip = PyStr (Rec.content record')) as ->.
  { unfold update_kwargs in Hcontent. by simplify_map_eq. }
  rewrite (update_dns_ip_run w' strict' _ _ _ _ Hclient Hz Hr), Hget', Hsame, Hinfo, Hip.
  simpl. by rewrite String.eqb_refl.
Qed.

Lemma rerun_after_update_is_in_sync_witness :
  run (update_dns_ip true secrets_ok)
      (world_of (inr record_5678) (inr (response_ok "5.6.7.8"))) =
    ([DnsRecordsGet client_ok "zone-1" "rec-1"; RequestsGet ifconfig_url ifconfig_headers],
     inr None).
Proof.
  apply (rerun_after_update_is_in_sync
           (world_of (inr record_1234) (inr (response_ok "5.6.7.8")))
           (world_of (inr record_5678) (inr (response_ok "5.6.7.8")))
           true true secrets_ok client_ok "zone-1" "rec-1"
           (update_kwargs record_1234 (PyStr "5.6.7.8") "zone-1") record_5678);
    try (vm_compute; reflexivity).
  vm_compute. do 2 right. left.
Defined.

(** X12.  A record is returned only as the answer to a write (docstring,
    lines 61-63): when [update_dns_ip] returns a record, its calls were the
    read, the lookup and, third and last, an update, and the record is what
    the provider answered to that update. *)
Theorem returned_record_is_the_update_answer
    w strict (secrets : gmap string string) updated :
  (run (update_dns_ip strict secrets) w).2 = inr (Some updated) →
  ∃ client zone rid kwargs,
    (run (update_dns_ip strict secrets) w).1 =
      [DnsRecordsGet client zone rid; RequestsGet ifconfig_url ifconfig_headers;
       DnsRecordsUpdate client kwargs]
    ∧ dns_records_update w client kwargs = inr updated.
Proof.
  destruct (secrets !! "CLOUDFLARE_API_TOKEN") as [token|] eqn:Ht; last first.
  { by rewrite (update_dns_ip_missing_token _ _ _ Ht). }
  destruct (secrets !! "ZONE_ID") as [zone|] eqn:Hz; last first.
  { by rewrite (update_dns_ip_missing_zone _ _ _ _ Ht Hz). }
  destruct (secrets !! "RECORD_ID") as [rid|] eqn:Hr; last first.
  { by rewrite (update_dns_ip_missing_record _ _ _ _ _ Ht Hz Hr). }
  rewrite (update_dns_ip_run w strict _ _ _ _ (cloudflare_client_Some _ _ Ht) Hz Hr).
  simpl.
  destruct (dns_records_get w _ zone rid) as [e|record]; simpl; [done|].
  destruct (run (get_public_ip strict) w).2 as [e|info]; simpl; [done|].
  destruct (py_getitem info "ip") as [e|ip]; simpl; [done|].
  destruct (str_ne (Rec.content record) ip); simpl; [|done].
  destruct (dns_records_update w _ (update_kwargs record ip zone)) as [e|updated0] eqn:Hup;
    simpl; [done|].
  intros [= <-]. by eexists _, _, _, _.
Qed.

Lemma returned_record_is_the_update_answer_witness :
  ∃ client zone rid kwargs,
    (run (update_dns_ip true secrets_ok)
         (world_of (inr record_1234) (inr (response_ok "5.6.7.8")))).1 =
      [DnsRecordsGet client zone rid; RequestsGet ifconfig_url ifconfig_headers;
       DnsRecordsUpdate client kwargs]
    ∧ dns_records_update (world_of (inr record_1234) (inr (response_ok "5.6.7.8")))
        client kwargs = inr record_5678.
Proof.
  apply (returned_record_is_the_update_answer
           (world_of (inr record_1234) (inr (response_ok "5.6.7.8")))
           true secrets_ok record_5678).
  vm_compute. reflexivity.
Defined.

(** X13.  Only four entries of the keyword arguments are read:
    CLOUDFLARE_EMAIL, CLOUDFLARE_API_TOKEN, ZONE_ID and RECORD_ID.  Two
    keyword bags that agree on them give the same invocation, call log and
    result alike, whatever else they hold. *)
Theorem other_secrets_are_ignored w strict (secrets secrets' : gmap string string) :
  same_credentials secrets secrets' →
  run (update_dns_ip strict secrets) w = run (update_dns_ip strict secrets') w.
Proof.
  intros Hsame.
  assert (secrets !! "CLOUDFLARE_EMAIL" = secrets' !! "CLOUDFLARE_EMAIL") as Hemail
    by (apply Hsame; vm_compute; left).
  assert (secrets !! "CLOUDFLARE_API_TOKEN" = secrets' !! "CLOUDFLARE_API_TOKEN") as Htoken
    by (apply Hsame; vm_compute; right; left).
  assert (secrets !! "ZONE_ID" = secrets' !! "ZONE_ID") as Hzone
    by (apply Hsame; vm_compute; do 2 right; left).
  assert (secrets !! "RECORD_ID" = secrets' !! "RECORD_ID") as Hrecord
    by (apply Hsame; vm_compute; do 3 right; left).
  unfold run, update_dns_ip, cloudflare_client, getitem.
  by rewrite Hemail, Htoken, Hzone, Hrecord.
Qed.

Lemma other_secrets_are_ignored_witness :
  run (update_dns_ip true secrets_ok)
      (world_of (inr record_1234) (inr (response_ok "5.6.7.8")))
  = run (update_dns_ip true secrets_noisy)
        (world_of (inr record_1234) (inr (response_ok "5.6.7.8"))).
Proof.
  apply (other_secrets_are_ignored
           (world_of (inr record_1234) (inr (response_ok "5.6.7.8")))
           true secrets_ok secrets_noisy).
  intros key Hkey. unfold credential_keys, required_keys in Hkey.
  rewrite !elem_of_cons, elem_of_nil in Hkey.
  destruct_or?; subst; try done; vm_compute; reflexivity.
Defined.
